(** * Authentication mechanisms of lettre (PLAIN, CRAM-MD5) and the stub transport

    Shallow embedding of [src/authentication.rs] and [src/transport/stub/mod.rs].
    The codecs and the keyed hash come from the crate's dependencies
    ([rustc-serialize]'s [base64] and [hex], [rust-crypto]'s [Hmac] and [Md5]);
    they are written out here the way those crates compute them, so that the
    response of each mechanism can be evaluated on concrete inputs. *)

From Stdlib Require Import ZArith List String Ascii Bool Lia.
Import ListNotations.

Open Scope Z_scope.
Open Scope list_scope.

(** ** Bytes and strings *)

(** A [u8] is a [Z] in [0, 256); a [u32] is a [Z] in [0, 2^32). *)
Definition mask8 (x : Z) : Z := Z.land x 255.
Definition mask32 (x : Z) : Z := Z.land x (Z.ones 32).

(** [str::as_bytes]: a Rust string as its byte sequence. *)
Definition as_bytes (s : string) : list Z :=
  map (fun a => Z.of_N (N_of_ascii a)) (list_ascii_of_string s).

(** [String::from_utf8] of a byte vector the codecs produced (ASCII only). *)
Definition string_of_bytes (l : list Z) : string :=
  string_of_list_ascii (map (fun z => ascii_of_N (Z.to_N z)) l).

(** Rust's [Result]. *)
Inductive result (T E : Type) : Type :=
| Ok (x : T)
| Err (e : E).
Arguments Ok {T E} x.
Arguments Err {T E} e.

(** ** [rustc-serialize]: [ToBase64] with [base64::STANDARD]

    [STANDARD] is the standard character set, padding on, no line length: the
    loop over full groups of three bytes followed by the [mod_len] tail. *)
Definition STANDARD_CHARS : list Z :=
  as_bytes "ABCDEFGHIJKLMNOPQRSTUVWXYZabcdefghijklmnopqrstuvwxyz0123456789+/".

Definition b64_char (n : Z) : Z := nth (Z.to_nat (Z.land n 63)) STANDARD_CHARS 0.

Definition PAD : Z := 61. (* b'=' *)

Fixpoint to_base64_bytes (l : list Z) : list Z :=
  match l with
  | a :: b :: c :: rest =>
      let n := Z.lor (Z.lor (Z.shiftl a 16) (Z.shiftl b 8)) c in
      b64_char (Z.shiftr n 18) :: b64_char (Z.shiftr n 12)
        :: b64_char (Z.shiftr n 6) :: b64_char n :: to_base64_bytes rest
  | [a] =>
      let n := Z.shiftl a 16 in
      [b64_char (Z.shiftr n 18); b64_char (Z.shiftr n 12); PAD; PAD]
  | [a; b] =>
      let n := Z.lor (Z.shiftl a 16) (Z.shiftl b 8) in
      [b64_char (Z.shiftr n 18); b64_char (Z.shiftr n 12); b64_char (Z.shiftr n 6); PAD]
  | [] => []
  end.

Definition to_base64 (l : list Z) : string := string_of_bytes (to_base64_bytes l).

(** ** [rustc-serialize]: [FromBase64] for [str]

    The decoder accepts both the standard and the URL-safe characters, skips
    CR and LF, stops at the first [=] and then only allows [=], CR and LF. The
    accumulator [buf] is a [u32] that is never reset, so its shifts wrap. *)
Inductive FromBase64Error : Type :=
| InvalidBase64Byte (byte : Z) (index : nat)
| InvalidBase64Length.

Inductive DecodeCode : Type :=
| Code (v : Z)
| NEWLINE_CODE
| EQUALS_CODE
| INVALID_CODE.

Definition decode_code (b : Z) : DecodeCode :=
  if (65 <=? b) && (b <=? 90) then Code (b - 65)            (* A..Z *)
  else if (97 <=? b) && (b <=? 122) then Code (b - 71)      (* a..z *)
  else if (48 <=? b) && (b <=? 57) then Code (b + 4)        (* 0..9 *)
  else if (b =? 43) || (b =? 45) then Code 62               (* + - *)
  else if (b =? 47) || (b =? 95) then Code 63               (* / _ *)
  else if (b =? 13) || (b =? 10) then NEWLINE_CODE          (* \r \n *)
  else if b =? 61 then EQUALS_CODE                          (* = *)
  else INVALID_CODE.

(** The second loop, over what follows the first [=]. *)
Fixpoint check_after_padding (idx : nat) (l : list Z) : result unit FromBase64Error :=
  match l with
  | [] => Ok tt
  | b :: rest =>
      if (b =? 61) || (b =? 13) || (b =? 10)
      then check_after_padding (S idx) rest
      else Err (InvalidBase64Byte b idx)
  end.

(** The first loop: state [(buf, modulus, r)]. *)
Fixpoint decode_loop (idx : nat) (l : list Z) (buf : Z) (modulus : nat) (r : list Z)
  : result (Z * nat * list Z) FromBase64Error :=
  match l with
  | [] => Ok (buf, modulus, r)
  | b :: rest =>
      match decode_code b with
      | NEWLINE_CODE => decode_loop (S idx) rest buf modulus r
      | EQUALS_CODE =>
          match check_after_padding (S idx) rest with
          | Ok _ => Ok (buf, modulus, r)
          | Err e => Err e
          end
      | INVALID_CODE => Err (InvalidBase64Byte b idx)
      | Code c =>
          let buf' := mask32 (Z.shiftl (Z.lor buf c) 6) in
          if Nat.eqb (S modulus) 4
          then decode_loop (S idx) rest buf' 0
                 (r ++ [mask8 (Z.shiftr buf' 22); mask8 (Z.shiftr buf' 14);
                        mask8 (Z.shiftr buf' 6)])
          else decode_loop (S idx) rest buf' (S modulus) r
      end
  end.

Definition from_base64 (s : string) : result (list Z) FromBase64Error :=
  match decode_loop 0 (as_bytes s) 0 0 [] with
  | Err e => Err e
  | Ok (buf, modulus, r) =>
      match modulus with
      | 2%nat => Ok (r ++ [mask8 (Z.shiftr buf 10)])
      | 3%nat => Ok (r ++ [mask8 (Z.shiftr buf 16); mask8 (Z.shiftr buf 8)])
      | 0%nat => Ok r
      | _ => Err InvalidBase64Length
      end
  end.

(** ** [rustc-serialize]: [ToHex] for [[u8]] *)
Definition HEX_CHARS : list Z := as_bytes "0123456789abcdef".

Fixpoint to_hex_bytes (l : list Z) : list Z :=
  match l with
  | [] => []
  | b :: rest =>
      nth (Z.to_nat (Z.shiftr b 4)) HEX_CHARS 0
        :: nth (Z.to_nat (Z.land b 15)) HEX_CHARS 0 :: to_hex_bytes rest
  end.

Definition to_hex (l : list Z) : string := string_of_bytes (to_hex_bytes l).

(** ** [rust-crypto]: [Md5] (RFC 1321) *)

Definition add32 (a b : Z) : Z := mask32 (a + b).
Definition not32 (x : Z) : Z := Z.lxor x (Z.ones 32).
Definition rotl32 (x : Z) (n : Z) : Z :=
  mask32 (Z.lor (Z.shiftl x n) (Z.shiftr x (32 - n))).

(** [n] bytes of [x], least significant first. *)
Fixpoint le_bytes (n : nat) (x : Z) : list Z :=
  match n with
  | O => []
  | S n' => mask8 x :: le_bytes n' (Z.shiftr x 8)
  end.

(** The sixteen little-endian words of a 64-byte block. *)
Fixpoint le_words (l : list Z) : list Z :=
  match l with
  | b0 :: b1 :: b2 :: b3 :: rest =>
      Z.lor (Z.lor b0 (Z.shiftl b1 8)) (Z.lor (Z.shiftl b2 16) (Z.shiftl b3 24))
        :: le_words rest
  | _ => []
  end.

Definition MD5_K : list Z :=
  [0xd76aa478; 0xe8c7b756; 0x242070db; 0xc1bdceee;
   0xf57c0faf; 0x4787c62a; 0xa8304613; 0xfd469501;
   0x698098d8; 0x8b44f7af; 0xffff5bb1; 0x895cd7be;
   0x6b901122; 0xfd987193; 0xa679438e; 0x49b40821;
   0xf61e2562; 0xc040b340; 0x265e5a51; 0xe9b6c7aa;
   0xd62f105d; 0x02441453; 0xd8a1e681; 0xe7d3fbc8;
   0x21e1cde6; 0xc33707d6; 0xf4d50d87; 0x455a14ed;
   0xa9e3e905; 0xfcefa3f8; 0x676f02d9; 0x8d2a4c8a;
   0xfffa3942; 0x8771f681; 0x6d9d6122; 0xfde5380c;
   0xa4beea44; 0x4bdecfa9; 0xf6bb4b60; 0xbebfbc70;
   0x289b7ec6; 0xeaa127fa; 0xd4ef3085; 0x04881d05;
   0xd9d4d039; 0xe6db99e5; 0x1fa27cf8; 0xc4ac5665;
   0xf4292244; 0x432aff97; 0xab9423a7; 0xfc93a039;
   0x655b59c3; 0x8f0ccc92; 0xffeff47d; 0x85845dd1;
   0x6fa87e4f; 0xfe2ce6e0; 0xa3014314; 0x4e0811a1;
   0xf7537e82; 0xbd3af235; 0x2ad7d2bb; 0xeb86d391].

Definition MD5_S : list Z :=
  [7; 12; 17; 22; 7; 12; 17; 22; 7; 12; 17; 22; 7; 12; 17; 22;
   5; 9; 14; 20; 5; 9; 14; 20; 5; 9; 14; 20; 5; 9; 14; 20;
   4; 11; 16; 23; 4; 11; 16; 23; 4; 11; 16; 23; 4; 11; 16; 23;
   6; 10; 15; 21; 6; 10; 15; 21; 6; 10; 15; 21; 6; 10; 15; 21].

(** The round function and the message word of operation [i]. *)
Definition md5_fun (i : nat) (b c d : Z) : Z :=
  if (i <? 16)%nat then Z.lor (Z.land b c) (Z.land (not32 b) d)
  else if (i <? 32)%nat then Z.lor (Z.land d b) (Z.land (not32 d) c)
  else if (i <? 48)%nat then Z.lxor b (Z.lxor c d)
  else Z.lxor c (Z.lor b (not32 d)).

Definition md5_index (i : nat) : nat :=
  if (i <? 16)%nat then i
  else if (i <? 32)%nat then (5 * i + 1) mod 16
  else if (i <? 48)%nat then (3 * i + 5) mod 16
  else (7 * i) mod 16.

Definition md5_state : Type := (Z * Z * Z * Z)%type.

Definition MD5_INIT : md5_state := (0x67452301, 0xefcdab89, 0x98badcfe, 0x10325476).

Definition md5_op (m : list Z) (st : md5_state) (i : nat) : md5_state :=
  let '(a, b, c, d) := st in
  let f := add32 (add32 (add32 (md5_fun i b c d) a) (nth i MD5_K 0)) (nth (md5_index i) m 0) in
  (d, add32 b (rotl32 f (nth i MD5_S 0)), b, c).

Definition md5_compress (st : md5_state) (block : list Z) : md5_state :=
  let m := le_words block in
  let '(a', b', c', d') := fold_left (md5_op m) (seq 0 64) st in
  let '(a, b, c, d) := st in
  (add32 a a', add32 b b', add32 c c', add32 d d').

(** The blocks of a padded message, [n] blocks of 64 bytes. *)
Fixpoint md5_blocks (n : nat) (st : md5_state) (l : list Z) : md5_state :=
  match n with
  | O => st
  | S n' => md5_blocks n' (md5_compress st (firstn 64 l)) (skipn 64 l)
  end.

(** The message, one [0x80] byte, zeros up to 56 modulo 64, and the bit length
    on 64 bits, little-endian. *)
Definition md5_pad (msg : list Z) : list Z :=
  let len := Z.of_nat (List.length msg) in
  msg ++ [0x80] ++ repeat 0 (Z.to_nat ((55 - len) mod 64))
      ++ le_bytes 8 (Z.land (8 * len) (Z.ones 64)).

Definition md5 (msg : list Z) : list Z :=
  let padded := md5_pad msg in
  let '(a, b, c, d) := md5_blocks (List.length padded / 64) MD5_INIT padded in
  le_bytes 4 a ++ le_bytes 4 b ++ le_bytes 4 c ++ le_bytes 4 d.

(** ** [rust-crypto]: [Hmac<Md5>]

    [expand_key] copies a key of at most one block into a zeroed block and
    hashes a longer one first; the inner and outer keys are the expanded key
    xored with [0x36] and [0x5c]. [result().code()] is the outer digest. *)
Definition MD5_BLOCK_SIZE : nat := 64.

Definition expand_key (key : list Z) : list Z :=
  if (List.length key <=? MD5_BLOCK_SIZE)%nat
  then key ++ repeat 0 (MD5_BLOCK_SIZE - List.length key)
  else let h := md5 key in h ++ repeat 0 (MD5_BLOCK_SIZE - List.length h).

Definition create_keys (expanded_key : list Z) (pad : Z) : list Z :=
  map (fun k => Z.lxor k pad) expanded_key.

Definition hmac_md5 (key msg : list Z) : list Z :=
  let k := expand_key key in
  md5 (create_keys k 0x5c ++ md5 (create_keys k 0x36 ++ msg)).

(** ** The crate's types used by [authentication.rs] *)

(** The variants of [extension::Extension] that the mechanisms return. *)
Inductive Extension : Type :=
| PlainAuthentication
| CramMd5Authentication.

(** The variants of [error::Error] that the mechanisms construct:
    [ClientError(&'static str)] and [ChallengeParsingError(FromBase64Error)]. *)
Inductive Error : Type :=
| ClientError (msg : string)
| ChallengeParsingError (e : FromBase64Error).

(** Modelled from the spec: the crate-root constant [NUL] (lib.rs, not in src/),
    the one-character string holding the NUL byte. *)
Definition NUL : string := String (ascii_of_nat 0) EmptyString.

(** ** [authentication.rs] *)

(** The trait [Mecanism]: its three functions take no [self]. *)
Class Mecanism (M : Type) := {
  extension : Extension;
  supports_initial_response : bool;
  response : string -> string -> option string -> result string Error
}.
Arguments extension M {_}.
Arguments supports_initial_response M {_}.
Arguments response M {_} _ _ _.

(** PLAIN, RFC 4616. *)
Inductive Plain : Type := plain.

Definition Plain_extension : Extension := PlainAuthentication.

Definition Plain_supports_initial_response : bool := true.

Definition Plain_response (username password : string) (challenge : option string)
  : result string Error :=
  match challenge with
  | Some _ => Err (ClientError "This mecanism does not expect a challenge")
  | None =>
      Ok (to_base64 (as_bytes (NUL ++ username ++ NUL ++ password)%string))
  end.

#[export] Instance Plain_Mecanism : Mecanism Plain := {
  extension := Plain_extension;
  supports_initial_response := Plain_supports_initial_response;
  response := Plain_response
}.

(** CRAM-MD5, RFC 2195. *)
Inductive CramMd5 : Type := cram_md5.

Definition CramMd5_extension : Extension := CramMd5Authentication.

Definition CramMd5_supports_initial_response : bool := false.

Definition CramMd5_response (username password : string) (challenge : option string)
  : result string Error :=
  match challenge with
  | None => Err (ClientError "This mecanism does expect a challenge")
  | Some encoded_challenge =>
      match from_base64 encoded_challenge with
      | Err error => Err (ChallengeParsingError error)
      | Ok decoded_challenge =>
          let code := hmac_md5 (as_bytes password) decoded_challenge in
          Ok (to_base64 (as_bytes (username ++ " " ++ to_hex code)%string))
      end
  end.

#[export] Instance CramMd5_Mecanism : Mecanism CramMd5 := {
  extension := CramMd5_extension;
  supports_initial_response := CramMd5_supports_initial_response;
  response := CramMd5_response
}.

(** A sequence of calls to [response], each on its own inputs: the results a
    caller observes, one per call. *)
Definition call : Type := (string * string * option string)%type.

Definition run_calls (M : Type) `{Mecanism M} (calls : list call)
  : list (result string Error) :=
  map (fun '(u, p, c) => response M u p c) calls.

(** ** [transport/stub/mod.rs] *)

Module Stub.

(** [StubResult = Result<(), ()>]. *)
Definition StubResult : Type := result unit unit.

Record StubTransport : Type := mkStubTransport { response : StubResult }.

Definition new (response : StubResult) : StubTransport := mkStubTransport response.

Definition new_positive : StubTransport := mkStubTransport (Ok tt).

(** [Transport::send_raw]: the envelope and the message bytes are dropped. *)
Definition send_raw {Envelope : Type} (self : StubTransport) (_envelope : Envelope)
  (_email : list Z) : StubResult :=
  self.(response).

End Stub.

(** ** Lowercase hexadecimal, as the CRAM-MD5 wire format describes it

    A rendering of bytes as pairs of the digits [0-9a-f], high nibble first;
    [hex_decode_bytes] reads such a rendering back and is [None] on anything
    else. Written from RFC 2195's description, to state what [to_hex] gives. *)
Definition is_lower_hex_digit (c : Z) : bool :=
  ((48 <=? c) && (c <=? 57)) || ((97 <=? c) && (c <=? 102)).

Definition hex_digit_value (c : Z) : Z :=
  if (48 <=? c) && (c <=? 57) then c - 48 else c - 87.

Fixpoint hex_decode_bytes (l : list Z) : option (list Z) :=
  match l with
  | [] => Some []
  | hi :: lo :: rest =>
      if is_lower_hex_digit hi && is_lower_hex_digit lo
      then option_map (cons (16 * hex_digit_value hi + hex_digit_value lo))
             (hex_decode_bytes rest)
      else None
  | [_] => None
  end.

(** A byte value of a [u8]. *)
Definition byte_range (b : Z) : Prop := 0 <= b < 256.

(** * Properties *)

(** ** Helper lemmas *)

Lemma as_bytes_append (s t : string) :
  as_bytes (s ++ t)%string = as_bytes s ++ as_bytes t.
Proof.
  induction s as [|a s IH]; simpl; [reflexivity|].
  unfold as_bytes in *; simpl. now rewrite IH.
Qed.

Lemma run_calls_app (M : Type) `{Mecanism M} (l1 l2 : list call) :
  run_calls M (l1 ++ l2) = run_calls M l1 ++ run_calls M l2.
Proof. unfold run_calls. apply map_app. Qed.

Lemma run_calls_position (M : Type) `{Mecanism M} (history future : list call)
  (u p : string) (c : option string) :
  run_calls M (history ++ (u, p, c) :: future)
  = run_calls M history ++ response M u p c :: run_calls M future.
Proof. rewrite run_calls_app. reflexivity. Qed.

(** ** C3, C4: the crate's own test vectors *)

(** C3: [CramMd5::response("alice", "wonderland", Some(<RFC 2195 challenge>))]
    is the RFC 2195 example response. *)
Theorem CramMd5_response_test_vector :
  CramMd5_response "alice" "wonderland"
    (Some "PDE3ODkzLjEzMjA2NzkxMjNAdGVzc2VyYWN0LnN1c2FtLmluPg=="%string)
  = Ok "YWxpY2UgNjRiMmE0M2MxZjZlZDY4MDZhOTgwOTE0ZTIzZTc1ZjA="%string.
Proof. vm_compute. reflexivity. Qed.

(** C4: [Plain::response("username", "password", None)] is
    [Ok("AHVzZXJuYW1lAHBhc3N3b3Jk")]. *)
Theorem Plain_response_test_vector :
  Plain_response "username" "password" None = Ok "AHVzZXJuYW1lAHBhc3N3b3Jk"%string.
Proof. vm_compute. reflexivity. Qed.

(** ** C5: CRAM-MD5 error on a present challenge *)

(** C5: with a present challenge, CRAM-MD5 fails exactly when the challenge
    does not decode, and then with [ChallengeParsingError] wrapping the decoder's
    error (never [ClientError]); when it decodes, the response succeeds. The
    empty challenge decodes, so it succeeds. *)
Theorem CramMd5_response_present_challenge (u p c : string) :
  match from_base64 c with
  | Err e => CramMd5_response u p (Some c) = Err (ChallengeParsingError e)
  | Ok _ => exists s, CramMd5_response u p (Some c) = Ok s
  end
  /\ exists s, CramMd5_response u p (Some ""%string) = Ok s.
Proof.
  split.
  - unfold CramMd5_response. destruct (from_base64 c); eauto.
  - eexists. reflexivity.
Qed.

(** ** C6: PLAIN fails only on a present challenge *)

(** C6 as written: the message would be spelled "mechanism"; the source spells
    it "mecanism", so the claimed error value is not the one returned. *)
Lemma Plain_response_message_counterexample :
  Plain_response "u" "p" (Some ""%string)
  <> Err (ClientError "This mechanism does not expect a challenge").
Proof. vm_compute. discriminate. Qed.

(** C6 (amended): [Plain::response] fails, with [ClientError] carrying
    "This mecanism does not expect a challenge", exactly when a challenge is
    present (including [Some ""]); without one it always succeeds. *)
Theorem Plain_response_fails_only_on_challenge (u p : string) (c : option string) :
  match c with
  | Some _ => Plain_response u p c
              = Err (ClientError "This mecanism does not expect a challenge")
  | None => exists s, Plain_response u p c = Ok s
  end.
Proof. destruct c; simpl; eauto. Qed.

(** ** C7: CRAM-MD5 requires a challenge *)

(** C7: [CramMd5::response(u, p, None)] fails with a [ClientError]. *)
Theorem CramMd5_response_no_challenge (u p : string) :
  CramMd5_response u p None = Err (ClientError "This mecanism does expect a challenge").
Proof. reflexivity. Qed.

(** ** C8: mechanism metadata *)

(** C8: PLAIN supports an initial response and CRAM-MD5 does not; their
    extension tags are [PlainAuthentication] and [CramMd5Authentication], which
    differ. The four are constants of the trait instances. *)
Theorem Mecanism_metadata :
  supports_initial_response Plain = true
  /\ supports_initial_response CramMd5 = false
  /\ extension Plain = PlainAuthentication
  /\ extension CramMd5 = CramMd5Authentication
  /\ extension Plain <> extension CramMd5.
Proof. repeat split; discriminate. Qed.

(** ** C9: [response] is a pure function of its inputs *)

(** C9: for both mechanisms, in any sequence of calls, the result of a call is
    [response] of that call's own inputs, whatever calls come before or after
    it; so two calls on the same inputs return the same result. *)
Theorem response_pure :
  (forall (history future : list call) u p c,
      run_calls Plain (history ++ (u, p, c) :: future)
      = run_calls Plain history ++ Plain_response u p c :: run_calls Plain future)
  /\ (forall (history future : list call) u p c,
      run_calls CramMd5 (history ++ (u, p, c) :: future)
      = run_calls CramMd5 history ++ CramMd5_response u p c :: run_calls CramMd5 future)
  /\ (forall (M : Type) `{Mecanism M} u p c,
      run_calls M [(u, p, c); (u, p, c)] = [response M u p c; response M u p c]).
Proof.
  repeat split; intros; try apply run_calls_position; reflexivity.
Qed.

(** ** C10: the stub transport *)

(** C10: [StubTransport::new(r).send_raw(envelope, email)] is [r] for every
    envelope and message, and [new_positive()] always answers [Ok(())]. *)
Theorem Stub_send_raw_returns_response :
  (forall (Envelope : Type) (r : Stub.StubResult) (envelope : Envelope) (email : list Z),
      Stub.send_raw (Stub.new r) envelope email = r)
  /\ (forall (Envelope : Type) (envelope : Envelope) (email : list Z),
      Stub.send_raw Stub.new_positive envelope email = Ok tt).
Proof. split; reflexivity. Qed.

(** ** Bytes of the codecs *)

Lemma mask8_range (x : Z) : byte_range (mask8 x).
Proof.
  unfold byte_range, mask8. change 255 with (Z.ones 8).
  rewrite Z.land_ones by lia. apply Z.mod_pos_bound. lia.
Qed.

Lemma le_bytes_length (n : nat) (x : Z) : List.length (le_bytes n x) = n.
Proof. revert x; induction n; intros; simpl; [|rewrite IHn]; reflexivity. Qed.

Lemma le_bytes_range (n : nat) (x : Z) : Forall byte_range (le_bytes n x).
Proof.
  revert x; induction n; intros; simpl; constructor; auto using mask8_range.
Qed.

Lemma md5_length_range (msg : list Z) :
  List.length (md5 msg) = 16%nat /\ Forall byte_range (md5 msg).
Proof.
  unfold md5.
  destruct (md5_blocks _ _ _) as [[[a b] c] d].
  split.
  - rewrite !length_app, !le_bytes_length. reflexivity.
  - rewrite !Forall_app. repeat split; apply le_bytes_range.
Qed.

Lemma hmac_md5_length_range (key msg : list Z) :
  List.length (hmac_md5 key msg) = 16%nat /\ Forall byte_range (hmac_md5 key msg).
Proof. apply md5_length_range. Qed.

Lemma HEX_CHARS_nth (n : nat) :
  (n < 16)%nat ->
  is_lower_hex_digit (nth n HEX_CHARS 0) = true
  /\ hex_digit_value (nth n HEX_CHARS 0) = Z.of_nat n.
Proof.
  intros Hn.
  do 16 (destruct n as [|n]; [split; reflexivity|]).
  lia.
Qed.

Lemma lower_hex_digit_range (c : Z) : is_lower_hex_digit c = true -> byte_range c.
Proof.
  unfold is_lower_hex_digit, byte_range.
  intros H. apply orb_true_iff in H.
  destruct H as [H|H]; apply andb_true_iff in H; destruct H as [H1 H2];
    apply Z.leb_le in H1; apply Z.leb_le in H2; lia.
Qed.

Lemma nibbles_range (b : Z) :
  byte_range b ->
  (Z.to_nat (Z.shiftr b 4) < 16)%nat /\ (Z.to_nat (Z.land b 15) < 16)%nat
  /\ 16 * Z.of_nat (Z.to_nat (Z.shiftr b 4)) + Z.of_nat (Z.to_nat (Z.land b 15)) = b.
Proof.
  unfold byte_range. intros Hb.
  rewrite Z.shiftr_div_pow2 by lia.
  change 15 with (Z.ones 4). rewrite Z.land_ones by lia.
  change (2 ^ 4) with 16.
  assert (0 <= b / 16 < 16) by (split; [apply Z.div_pos | apply Z.div_lt_upper_bound]; lia).
  assert (0 <= b mod 16 < 16) by (apply Z.mod_pos_bound; lia).
  rewrite !Z2Nat.id by lia.
  split; [|split]; [lia | lia |].
  pose proof (Z.div_mod b 16). lia.
Qed.

Lemma to_hex_bytes_spec (l : list Z) :
  Forall byte_range l ->
  hex_decode_bytes (to_hex_bytes l) = Some l
  /\ List.length (to_hex_bytes l) = (2 * List.length l)%nat
  /\ Forall (fun c => is_lower_hex_digit c = true) (to_hex_bytes l).
Proof.
  induction 1 as [|b l Hb Hl IH]; [repeat split; constructor|].
  destruct IH as (IH1 & IH2 & IH3).
  destruct (nibbles_range b Hb) as (Hhi & Hlo & Hval).
  destruct (HEX_CHARS_nth _ Hhi) as [Dhi Vhi].
  destruct (HEX_CHARS_nth _ Hlo) as [Dlo Vlo].
  cbn [to_hex_bytes hex_decode_bytes]. rewrite Dhi, Dlo, Vhi, Vlo, IH1, Hval. simpl.
  repeat split; [lia | repeat constructor; assumption].
Qed.

Lemma as_bytes_string_of_bytes (l : list Z) :
  Forall byte_range l -> as_bytes (string_of_bytes l) = l.
Proof.
  intros H. unfold as_bytes, string_of_bytes.
  rewrite list_ascii_of_string_of_list_ascii, map_map.
  induction H as [|b l Hb Hl IH]; simpl; [reflexivity|].
  rewrite IH. f_equal.
  unfold byte_range in Hb.
  rewrite N_ascii_embedding by lia. apply Z2N.id. lia.
Qed.

Lemma length_string_of_bytes (l : list Z) :
  String.length (string_of_bytes l) = List.length l.
Proof. unfold string_of_bytes. induction l; simpl; [|rewrite IHl]; reflexivity. Qed.

(** ** C2: the PLAIN payload *)

(** C2: without a challenge, [Plain::response(u, p, None)] is [Ok] of the
    standard, padded base64 encoding of [NUL, u, NUL, p]: one leading NUL byte,
    the username bytes, one NUL byte and the password bytes, nothing after;
    also for an empty username or password. *)
Theorem Plain_response_payload (u p : string) :
  Plain_response u p None = Ok (to_base64 ([0] ++ as_bytes u ++ [0] ++ as_bytes p)).
Proof.
  unfold Plain_response. rewrite !as_bytes_append. reflexivity.
Qed.

(** ** C1: the CRAM-MD5 payload *)

(** C1: for a challenge [c] that decodes to the bytes [d], the CRAM-MD5
    response is [Ok] of the standard, padded base64 encoding of the username
    bytes, one space and [h], where [h] is exactly 32 lowercase hexadecimal
    digits whose reading is the HMAC-MD5 of [d] keyed with the password bytes. *)
Theorem CramMd5_response_payload (u p c : string) (d : list Z) :
  from_base64 c = Ok d ->
  exists h : string,
    CramMd5_response u p (Some c) = Ok (to_base64 (as_bytes u ++ [32] ++ as_bytes h))
    /\ hex_decode_bytes (as_bytes h) = Some (hmac_md5 (as_bytes p) d)
    /\ String.length h = 32%nat
    /\ Forall (fun ch => is_lower_hex_digit ch = true) (as_bytes h).
Proof.
  intros Hc.
  destruct (hmac_md5_length_range (as_bytes p) d) as [Hlen Hrange].
  destruct (to_hex_bytes_spec _ Hrange) as (Hdec & Hhexlen & Hdigits).
  assert (Hbytes : as_bytes (to_hex (hmac_md5 (as_bytes p) d))
                   = to_hex_bytes (hmac_md5 (as_bytes p) d)).
  { apply as_bytes_string_of_bytes.
    eapply Forall_impl; [|exact Hdigits]. intros ch. apply lower_hex_digit_range. }
  exists (to_hex (hmac_md5 (as_bytes p) d)).
  unfold CramMd5_response. rewrite Hc.
  rewrite Hbytes. repeat split; try assumption.
  - rewrite !as_bytes_append, Hbytes. reflexivity.
  - unfold to_hex. rewrite length_string_of_bytes, Hhexlen, Hlen. reflexivity.
Qed.

Lemma CramMd5_response_payload_witness :
  from_base64 "PDE3ODkzLjEzMjA2NzkxMjNAdGVzc2VyYWN0LnN1c2FtLmluPg=="%string
    = Ok (as_bytes "<17893.1320679123@tesseract.susam.in>")
  /\ exists h : string,
    CramMd5_response "alice" "wonderland"
      (Some "PDE3ODkzLjEzMjA2NzkxMjNAdGVzc2VyYWN0LnN1c2FtLmluPg=="%string)
    = Ok (to_base64 (as_bytes "alice" ++ [32] ++ as_bytes h))
    /\ hex_decode_bytes (as_bytes h)
       = Some (hmac_md5 (as_bytes "wonderland") (as_bytes "<17893.1320679123@tesseract.susam.in>"))
    /\ String.length h = 32%nat
    /\ Forall (fun ch => is_lower_hex_digit ch = true) (as_bytes h).
Proof.
  split.
  - vm_compute. reflexivity.
  - apply (CramMd5_response_payload "alice" "wonderland"
             "PDE3ODkzLjEzMjA2NzkxMjNAdGVzc2VyYWN0LnN1c2FtLmluPg=="%string
             (as_bytes "<17893.1320679123@tesseract.susam.in>")).
    vm_compute. reflexivity.
Defined.
